(** * QueryBuilder: a SQL template renderer (querybuilder.py)

    A shallow embedding of [QueryBuilder.__init__] and [QueryBuilder.render]
    together with the library functions they call: [str.strip],
    [str.split], the [%] formatting of the statement header, and [re.sub]
    for the two comment patterns.  The templating engine (jinja2) is an
    external collaborator; it is kept abstract behind the [Engine]
    interface, and a small interpolation-only instance is provided to run
    the documented examples. *)

From Stdlib Require Import ZArith String Ascii List DecimalString DecimalNat.
From Stdlib Require Import Sorted Lia.
From stdpp Require Import base gmap strings list.

Set Warnings "-register-all".
Set Default Proof Using "Type".

Local Open Scope string_scope.

#[local] Arguments String.append !_ _ / : simpl nomatch.

(** ** Python values and [str] operations *)

Module Py.

(** Characters are code points; [ascii] covers U+0000 .. U+00FF. *)
Definition LF : ascii := "010"%char.
Definition DQUOTE : ascii := "034"%char.

Definition nl : string := String LF EmptyString.
Definition dq : string := String DQUOTE EmptyString.

(** The values a caller can pass as [params] or store in a dict. *)
Inductive value : Type :=
| VNone
| VBool (b : bool)
| VInt (z : Z)
| VStr (s : string)
| VList (l : list value)
| VTuple (l : list value)
| VDict (d : gmap string value)
| VMappingProxy (d : gmap string value).

(** [isinstance(v, collections.abc.Mapping)]: a dict, or the read-only
    view [types.MappingProxyType(d)], which is a mapping and not a dict. *)
Definition is_mapping (v : value) : bool :=
  match v with
  | VDict _ | VMappingProxy _ => true
  | _ => false
  end.

(** [isinstance(v, dict)] *)
Definition isinstance_dict (v : value) : bool :=
  match v with
  | VDict _ => true
  | _ => false
  end.

(** [type(v).__name__] *)
Definition type_name (v : value) : string :=
  match v with
  | VNone => "NoneType"
  | VBool _ => "bool"
  | VInt _ => "int"
  | VStr _ => "str"
  | VList _ => "list"
  | VTuple _ => "tuple"
  | VDict _ => "dict"
  | VMappingProxy _ => "mappingproxy"
  end.

(** ['%s' % type(v)], i.e. [str(type(v))] *)
Definition type_str (v : value) : string :=
  "<class '" +:+ type_name v +:+ "'>".

(** [str(n)] for a non-negative integer *)
Definition str_of_nat (n : nat) : string :=
  NilEmpty.string_of_uint (Nat.to_uint n).

(** [c.isspace()] on the code points below 256: TAB..CR, FS..US, SPACE,
    NEL (0x85) and NBSP (0xA0). *)
Definition isspace (c : ascii) : bool :=
  let n := nat_of_ascii c in
  (((9 <=? n) && (n <=? 13)) || ((28 <=? n) && (n <=? 32))
   || (n =? 133) || (n =? 160))%nat.

(** [s.lstrip()] *)
Fixpoint lstrip (s : string) : string :=
  match s with
  | String c s' => if isspace c then lstrip s' else s
  | EmptyString => EmptyString
  end.

(** [s.rstrip()]: the text is kept up to its last non-space character. *)
Fixpoint rstrip (s : string) : string :=
  match s with
  | String c s' =>
      match rstrip s' with
      | EmptyString => if isspace c then EmptyString else String c EmptyString
      | r => String c r
      end
  | EmptyString => EmptyString
  end.

(** [s.strip()] *)
Definition strip (s : string) : string := rstrip (lstrip s).

(** [s.split(sep)] for a one-character separator: always at least one
    segment, empty segments are kept. *)
Fixpoint split (sep : ascii) (s : string) : list string :=
  match s with
  | EmptyString => [EmptyString]
  | String c s' =>
      if Ascii.eqb c sep then EmptyString :: split sep s'
      else match split sep s' with
           | seg :: segs => String c seg :: segs
           | [] => [String c EmptyString]
           end
  end.

(** [enumerate(l)], counting from [i] *)
Fixpoint enumerate_from {A} (i : nat) (l : list A) : list (nat * A) :=
  match l with
  | [] => []
  | x :: l' => (i, x) :: enumerate_from (S i) l'
  end.

Definition enumerate {A} (l : list A) : list (nat * A) := enumerate_from 0 l.

(** Truthiness of a [str]: [bool(s)] *)
Definition truthy (s : string) : bool :=
  match s with
  | EmptyString => false
  | String _ _ => true
  end.

End Py.

(** ** The fragment of Python's [re] used by [render] *)

Module Re.

(** Character sets of one-character atoms. *)
Inductive cset : Type :=
| Exactly (c : ascii)      (* a literal, [\/] or [[*]] *)
| AllBut (c : ascii)       (* a negated class [[^c]] *)
| AnyButNewline.           (* [.] without DOTALL *)

Definition cset_mem (cs : cset) (c : ascii) : bool :=
  match cs with
  | Exactly d => Ascii.eqb c d
  | AllBut d => negb (Ascii.eqb c d)
  | AnyButNewline => negb (Ascii.eqb c Py.LF)
  end.

(** Patterns: atoms, concatenation, ordered alternation and the lazy
    star [x*?] of an atom. *)
Inductive regex : Type :=
| Atom (cs : cset)
| Cat (r1 r2 : regex)
| Alt (r1 r2 : regex)
| LazyStar (cs : cset).

(** Backtracking matcher, in continuation style: [matches r k s] tries [r]
    at the head of [s] and hands the rest to [k]; the first success, in
    the order a backtracking engine explores, is the answer.  The result
    is the text left after the match. *)
Fixpoint matches (r : regex) (k : string -> option string) (s : string)
  : option string :=
  match r with
  | Atom cs =>
      match s with
      | String c s' => if cset_mem cs c then k s' else None
      | EmptyString => None
      end
  | Cat r1 r2 => matches r1 (matches r2 k) s
  | Alt r1 r2 =>
      match matches r1 k s with
      | Some rest => Some rest
      | None => matches r2 k s
      end
  | LazyStar cs =>
      (fix lazy (s : string) : option string :=
         match k s with
         | Some rest => Some rest
         | None =>
             match s with
             | String c s' => if cset_mem cs c then lazy s' else None
             | EmptyString => None
             end
         end) s
  end.

(** [match_at r s]: the rest of [s] after the match of [r] at its head. *)
Definition match_at (r : regex) (s : string) : option string :=
  matches r Some s.

(** [re.sub(r, '', s)]: scanning left to right, every match is dropped and
    the scan resumes after it; where nothing (or only the empty text)
    matches, one character is copied.  [skip] counts the characters of the
    current match that are still to be dropped. *)
Fixpoint sub_skip (r : regex) (skip : nat) (s : string) : string :=
  match s with
  | EmptyString => EmptyString
  | String c s' =>
      match skip with
      | S n => sub_skip r n s'
      | O =>
          match match_at r s with
          | Some rest =>
              match String.length s - String.length rest with
              | S n => sub_skip r n s'
              | O => String c (sub_skip r 0 s')
              end
          | None => String c (sub_skip r 0 s')
          end
      end
  end.

Definition sub_empty (r : regex) (s : string) : string := sub_skip r 0 s.

(** [r'\/[*][^*]*?[*]\/'] *)
Definition block_comment : regex :=
  Cat (Atom (Exactly "/")) (Cat (Atom (Exactly "*"))
    (Cat (LazyStar (AllBut "*"))
       (Cat (Atom (Exactly "*")) (Atom (Exactly "/"))))).

(** [r'(--|#).*?\n'] *)
Definition line_comment : regex :=
  Cat (Alt (Cat (Atom (Exactly "-")) (Atom (Exactly "-"))) (Atom (Exactly "#")))
    (Cat (LazyStar AnyButNewline) (Atom (Exactly Py.LF))).

(** [avoids c s]: the character [c] does not occur in [s]. *)
Fixpoint avoids (c : ascii) (s : string) : bool :=
  match s with
  | EmptyString => true
  | String d s' => negb (Ascii.eqb d c) && avoids c s'
  end.

(** What is left of [s] after its first newline, if it has one. *)
Fixpoint after_newline (s : string) : option string :=
  match s with
  | EmptyString => None
  | String c s' => if Ascii.eqb c Py.LF then Some s' else after_newline s'
  end.

(** What is left of [s] after its first star, provided a slash follows
    that star directly. *)
Fixpoint after_close (s : string) : option string :=
  match s with
  | EmptyString => None
  | String c s' =>
      if Ascii.eqb c "*" then
        match s' with
        | String d rest => if Ascii.eqb d "/" then Some rest else None
        | EmptyString => None
        end
      else after_close s'
  end.

End Re.

(** ** The templating engine, as the renderer sees it *)

(** [compile] stands for [jinja2.Template(text)] and [render_template] for
    [Template.render(params)]; both may raise, and what they raise is the
    engine's business. *)
Class Engine : Type := {
  Template : Type;
  engine_error : Type;
  compile : string -> engine_error + Template;
  render_template : Template -> gmap string Py.value -> engine_error + string
}.

(** ** QueryBuilder *)

Module QueryBuilder.

Section WithEngine.

Context {E : Engine}.

(** The attributes [__init__] sets on [self]. *)
Record t : Type := mk {
  original : string;
  prefix : string;
  template : Template
}.

(** What a call can raise: the [TypeError] of the argument check, or
    whatever the engine raised, passed on untouched. *)
Inductive exn : Type :=
| TypeError (msg : string)
| EngineError (e : engine_error).

(** Methods run against the object [self] and either return or raise. *)
Definition M (A : Type) : Type := t -> t * (exn + A).

Definition ret {A} (a : A) : M A := fun self => (self, inr a).

Definition raise {A} (e : exn) : M A := fun self => (self, inl e).

Definition bind {A B} (m : M A) (k : A -> M B) : M B :=
  fun self =>
    match m self with
    | (self', inr a) => k a self'
    | (self', inl e) => (self', inl e)
    end.

(** [self.attr] *)
Definition attr {A} (f : t -> A) : M A := fun self => (self, inr (f self)).

(** A call into the engine: its error, if any, propagates. *)
Definition call {A} (r : engine_error + A) : M A :=
  match r with
  | inr a => ret a
  | inl e => raise (EngineError e)
  end.

Notation "x <- m ;; k" := (bind m (fun x => k))
  (at level 100, m at next level, right associativity).

(** [for x in l: acc = body x acc] *)
Fixpoint for_each {A B} (l : list A) (body : A -> B -> M B) (acc : B) : M B :=
  match l with
  | [] => ret acc
  | x :: l' => acc' <- body x acc ;; for_each l' body acc'
  end.

(** [type(self).__name__] *)
Definition class_name : string := "QueryBuilder".

(** [a or b] on an optional string: [None] and [''] are falsy. *)
Definition or_else (a : option string) (b : string) : string :=
  match a with
  | Some s => if Py.truthy s then s else b
  | None => b
  end.

(** [QueryBuilder(statements, prefix)] *)
Definition init (statements : string) (prefix : option string)
  : engine_error + t :=
  let original := statements in
  let prefix := or_else prefix class_name in
  match compile statements with
  | inr template => inr (mk original prefix template)
  | inl e => inl e
  end.

(** ['-- %s (#%s) --\n%s\n' % (prefix, ordinal, statement)] *)
Definition stmt (prefix : string) (ordinal : nat) (statement : string)
  : string :=
  "-- " +:+ prefix +:+ " (#" +:+ Py.str_of_nat ordinal +:+ ") --" +:+ Py.nl
  +:+ statement +:+ Py.nl.

(** ['Provided `params` is not dict (type=%s)' % type(params)] *)
Definition type_error_msg (params : Py.value) : string :=
  "Provided `params` is not dict (type=" +:+ Py.type_str params +:+ ")".

(** The items of a dict (nothing for any other value). *)
Definition dict_of (v : Py.value) : gmap string Py.value :=
  match v with
  | Py.VDict d => d
  | _ => ∅
  end.

(** The two [re.sub] passes and the split, lines 96-101. *)
Definition post_process (rendered : string) : list string :=
  let rendered := Re.sub_empty Re.block_comment rendered in
  let rendered := Re.sub_empty Re.line_comment rendered in
  Py.split ";" rendered.

(** The body of the [for] loop, lines 105-109. *)
Definition loop_body (item : nat * string) (statements : list string)
  : M (list string) :=
  let '(index, statement) := item in
  let statement := Py.strip statement in
  if Py.truthy statement then
    prefix <- attr prefix ;;
    let statement := stmt prefix (index + 1) statement in
    ret (statements ++ [statement])%list
  else ret statements.

(** [if params is None: params = dict()] *)
Definition or_dict (params : Py.value) : Py.value :=
  match params with
  | Py.VNone => Py.VDict ∅
  | _ => params
  end.

(** [self.render(params)]; a call without argument passes [None]. *)
Definition render (params : Py.value) : M (list string) :=
  let params := or_dict params in
  if negb (Py.isinstance_dict params) then
    raise (TypeError (type_error_msg params))
  else
    template <- attr template ;;
    rendered <- call (render_template template (dict_of params)) ;;
    let rendered := post_process rendered in
    for_each (Py.enumerate rendered) loop_body [].

(** [self.render()] *)
Definition render_default : M (list string) := render Py.VNone.

(** The result of a call, and the object after it. *)
Definition result {A} (m : M A) (self : t) : exn + A := snd (m self).
Definition after {A} (m : M A) (self : t) : t := fst (m self).

(** [QueryBuilder(statements, prefix).render(params)] *)
Definition build_and_render (statements : string) (prefix : option string)
  (params : Py.value) : engine_error + (exn + list string) :=
  match init statements prefix with
  | inr self => inr (result (render params) self)
  | inl e => inl e
  end.

(** Several calls in a row on the same object: the object at the end. *)
Fixpoint after_calls (calls : list Py.value) (self : t) : t :=
  match calls with
  | [] => self
  | p :: calls' => after_calls calls' (after (render p) self)
  end.

End WithEngine.

Arguments t : clear implicits.
Arguments exn : clear implicits.

End QueryBuilder.

(** ** An interpolation-only engine *)

(** Modelled from the spec: the external templating capability
    ([jinja2.Template] and its [render]), which is not part of this
    repository, for the subset the examples need: literal text and
    [{{ name }}] placeholders.  A name absent from the bindings renders as
    empty text, strings render as themselves and integers in decimal; one
    trailing newline of the template text is dropped, as jinja2 does by
    default.  Control tags, comments tags and other expressions are
    reported as [Unsupported]. *)
Module Jinja.

Inductive node : Type :=
| Data (text : string)
| Var (name : string).

Inductive error : Type :=
| Unsupported
| UnexpectedEnd.

(** Where the lexer is: in literal text, just after a [{] in literal
    text, inside [{{ ... }}] with the expression read so far, or just
    after a [}] inside it. *)
Inductive mode : Type :=
| InData
| SeenOpen
| InVar (expr : string)
| SeenClose (expr : string).

Definition is_ident_start (c : ascii) : bool :=
  let n := nat_of_ascii c in
  (((65 <=? n) && (n <=? 90)) || ((97 <=? n) && (n <=? 122)) || (n =? 95))%nat.

Definition is_ident_char (c : ascii) : bool :=
  let n := nat_of_ascii c in
  (is_ident_start c || ((48 <=? n) && (n <=? 57)))%nat.

Fixpoint all_chars (p : ascii -> bool) (s : string) : bool :=
  match s with
  | EmptyString => true
  | String c s' => p c && all_chars p s'
  end.

Definition is_ident (s : string) : bool :=
  match s with
  | EmptyString => false
  | String c s' => is_ident_start c && all_chars is_ident_char s'
  end.

(** Put one more literal character in front of the nodes. *)
Definition push (c : ascii) (nodes : list node) : list node :=
  match nodes with
  | Data text :: rest => Data (String c text) :: rest
  | _ => Data (String c EmptyString) :: nodes
  end.

(** Apply [f] to a result that is not an error. *)
Definition map_ok {A B} (f : A -> B) (r : error + A) : error + B :=
  match r with
  | inr a => inr (f a)
  | inl e => inl e
  end.

Definition snoc (s : string) (c : ascii) : string :=
  s +:+ String c EmptyString.

Fixpoint lex (m : mode) (s : string) : error + list node :=
  match s with
  | EmptyString =>
      match m with
      | InData => inr []
      | SeenOpen => inr [Data "{"]
      | InVar _ | SeenClose _ => inl UnexpectedEnd
      end
  | String c s' =>
      match m with
      | InData =>
          if Ascii.eqb c "{" then lex SeenOpen s'
          else map_ok (push c) (lex InData s')
      | SeenOpen =>
          if Ascii.eqb c "{" then lex (InVar EmptyString) s'
          else if Ascii.eqb c "%" || Ascii.eqb c "#" then inl Unsupported
          else map_ok (fun nodes => push "{" (push c nodes)) (lex InData s')
      | InVar expr =>
          if Ascii.eqb c "}" then lex (SeenClose expr) s'
          else lex (InVar (snoc expr c)) s'
      | SeenClose expr =>
          if Ascii.eqb c "}" then
            let name := Py.strip expr in
            if is_ident name then map_ok (cons (Var name)) (lex InData s')
            else inl Unsupported
          else lex (InVar (snoc (snoc expr "}") c)) s'
      end
  end.

(** Drop one trailing newline, if there is one. *)
Fixpoint chomp (s : string) : string :=
  match s with
  | EmptyString => EmptyString
  | String c EmptyString => if Ascii.eqb c Py.LF then EmptyString else s
  | String c s' => String c (chomp s')
  end.

Definition compile (source : string) : error + list node :=
  lex InData (chomp source).

(** How a bound value prints inside [{{ }}]. *)
Definition to_text (v : option Py.value) : error + string :=
  match v with
  | None => inr EmptyString
  | Some (Py.VStr s) => inr s
  | Some (Py.VInt z) => inr (NilEmpty.string_of_int (Z.to_int z))
  | Some _ => inl Unsupported
  end.

Fixpoint render (nodes : list node) (params : gmap string Py.value)
  : error + string :=
  match nodes with
  | [] => inr EmptyString
  | Data text :: rest => map_ok (String.append text) (render rest params)
  | Var name :: rest =>
      match to_text (params !! name) with
      | inr text => map_ok (String.append text) (render rest params)
      | inl e => inl e
      end
  end.

#[export] Instance engine : Engine :=
  Build_Engine (list node) error compile render.

End Jinja.

(** ** Vocabulary of the statements *)

Module Unit.

(** A segment that survives the [if statement:] test. *)
Definition nonblank (segment : string) : bool :=
  Py.truthy (Py.strip segment).

(** What one raw segment at 0-based [index] contributes to the output. *)
Definition emit (prefix : string) (item : nat * string) : list string :=
  if nonblank (snd item)
  then [QueryBuilder.stmt prefix (fst item + 1) (Py.strip (snd item))]
  else [].

(** The 0-based positions of the non-blank segments, counted from [i]. *)
Fixpoint positions_from (i : nat) (segments : list string) : list nat :=
  match segments with
  | [] => []
  | s :: rest =>
      if nonblank s then i :: positions_from (S i) rest
      else positions_from (S i) rest
  end.

Definition positions (segments : list string) : list nat :=
  positions_from 0 segments.

(** The unit for the segment at 0-based position [i]: its header carries
    the 1-based ordinal [i + 1]. *)
Definition at_position (prefix : string) (segments : list string) (i : nat)
  : string :=
  QueryBuilder.stmt prefix (i + 1) (Py.strip (nth i segments EmptyString)).

(** What a call of [render] comes to, as one expression: the argument
    check, the engine's answer, and the units of the segments. *)
Definition outcome {E : Engine} (self : QueryBuilder.t E) (p : Py.value)
  : QueryBuilder.exn E + list string :=
  let params := QueryBuilder.or_dict p in
  if Py.isinstance_dict params then
    match render_template (QueryBuilder.template self)
            (QueryBuilder.dict_of params) with
    | inr text =>
        inr (flat_map (emit (QueryBuilder.prefix self))
               (Py.enumerate (QueryBuilder.post_process text)))
    | inl e => inl (QueryBuilder.EngineError e)
    end
  else inl (QueryBuilder.TypeError (QueryBuilder.type_error_msg params)).

End Unit.

(** The inputs of the documented scenarios. *)
Module Scenario.

Definition statement_A : string :=
  "select * from {{table}} where date = " +:+ Py.dq +:+ "{{date}}" +:+ Py.dq.

Definition params_A : gmap string Py.value :=
  <["table" := Py.VStr "test"]> (<["date" := Py.VStr "2016-11-23"]> ∅).

Definition rendered_A : string :=
  "select * from test where date = " +:+ Py.dq +:+ "2016-11-23" +:+ Py.dq.

Definition unit_A : string :=
  "-- QueryBuilder (#1) --" +:+ Py.nl
  +:+ "select * from test where date = " +:+ Py.dq +:+ "2016-11-23" +:+ Py.dq
  +:+ Py.nl.

(** What the interpolation engine makes of [statement_A]. *)
Definition template_A : list Jinja.node :=
  [Jinja.Data "select * from "; Jinja.Var "table";
   Jinja.Data (" where date = " +:+ Py.dq); Jinja.Var "date";
   Jinja.Data Py.dq].

Definition renderer_A : QueryBuilder.t Jinja.engine :=
  QueryBuilder.mk (E:=Jinja.engine) statement_A "QueryBuilder" template_A.

(** A renderer over the interpolation engine for a text without
    placeholders. *)
Definition plain (statements prefix : string) : QueryBuilder.t Jinja.engine :=
  QueryBuilder.mk (E:=Jinja.engine) statements prefix [Jinja.Data statements].

(** A block comment with a lone star inside, in front of a statement. *)
Definition starred : string := "/* a * b */select 1".

(** A line comment on the last line, with and without its newline. *)
Definition trailing : string := "select 1; -- done".
Definition trailing_nl : string := "select 1; -- done" +:+ Py.nl.

(** Three raw segments, the second one blank. *)
Definition gap : string := "select 1; ;select 3".

(** A template that starts with a comment line and holds a block comment
    over two lines (scenario D). *)
Definition statement_D : string :=
  "-- comment" +:+ Py.nl +:+ "select 1; /* block " +:+ Py.nl
  +:+ " comment */ select 2;".

End Scenario.

(** ** The renderer over an engine with state *)

(** While it renders, jinja2 can read and change state outside the
    renderer: its [random] filter draws from Python's random source, and
    a generator among the bindings is consumed.  [InWorld.render] is
    [QueryBuilder.render] again, statement by statement, with the call
    into the engine taking the state of that world and giving the next
    one. *)
Module InWorld.

Section WithWorld.

Context {E : Engine} {World : Type}.

(** [template.render(params)], in a world *)
Variable render_in :
  Template -> gmap string Py.value -> World ->
  (engine_error + string) * World.

(** A method runs against [self] and the world. *)
Definition M (A : Type) : Type :=
  QueryBuilder.t E * World ->
  (QueryBuilder.t E * World) * (QueryBuilder.exn E + A).

Definition ret {A} (a : A) : M A := fun st => (st, inr a).

Definition raise {A} (e : QueryBuilder.exn E) : M A := fun st => (st, inl e).

Definition bind {A B} (m : M A) (k : A -> M B) : M B :=
  fun st =>
    match m st with
    | (st', inr a) => k a st'
    | (st', inl e) => (st', inl e)
    end.

(** [self.attr] *)
Definition attr {A} (f : QueryBuilder.t E -> A) : M A :=
  fun st => (st, inr (f (fst st))).

(** A call into the engine: the world moves on, an error propagates. *)
Definition call {A} (f : World -> (engine_error + A) * World) : M A :=
  fun st =>
    match f (snd st) with
    | (inr a, world) => ((fst st, world), inr a)
    | (inl e, world) => ((fst st, world), inl (QueryBuilder.EngineError e))
    end.

Notation "x <- m ;; k" := (bind m (fun x => k))
  (at level 100, m at next level, right associativity).

Fixpoint for_each {A B} (l : list A) (body : A -> B -> M B) (acc : B) : M B :=
  match l with
  | [] => ret acc
  | x :: l' => acc' <- body x acc ;; for_each l' body acc'
  end.

(** The body of the [for] loop, lines 105-109. *)
Definition loop_body (item : nat * string) (statements : list string)
  : M (list string) :=
  let '(index, statement) := item in
  let statement := Py.strip statement in
  if Py.truthy statement then
    prefix <- attr QueryBuilder.prefix ;;
    let statement := QueryBuilder.stmt prefix (index + 1) statement in
    ret (statements ++ [statement])%list
  else ret statements.

(** [self.render(params)] *)
Definition render (params : Py.value) : M (list string) :=
  let params := QueryBuilder.or_dict params in
  if negb (Py.isinstance_dict params) then
    raise (QueryBuilder.TypeError (QueryBuilder.type_error_msg params))
  else
    template <- attr QueryBuilder.template ;;
    rendered <- call (render_in template (QueryBuilder.dict_of params)) ;;
    let rendered := QueryBuilder.post_process rendered in
    for_each (Py.enumerate rendered) loop_body [].

(** The result of a call of [render], and renderer and world after it. *)
Definition result (params : Py.value) (st : QueryBuilder.t E * World)
  : QueryBuilder.exn E + list string :=
  snd (render params st).

Definition after (params : Py.value) (st : QueryBuilder.t E * World)
  : QueryBuilder.t E * World :=
  fst (render params st).

(** Several calls in a row: renderer and world at the end. *)
Fixpoint after_calls (calls : list Py.value) (st : QueryBuilder.t E * World)
  : QueryBuilder.t E * World :=
  match calls with
  | [] => st
  | p :: calls' => after_calls calls' (after p st)
  end.

End WithWorld.

(** An engine without state, in a world it leaves alone or in one that
    counts its renderings. *)
Definition stateless {E : Engine} {World : Type} (template : Template)
  (params : gmap string Py.value) (world : World)
  : (engine_error + string) * World :=
  (render_template template params, world).


End InWorld.

(** A stand-in for a template that uses jinja2's [random] filter,
    [<text>{{ range(n) | random }}]: the compiled template is the text,
    the world is the list of numbers the random source is going to
    deliver, and each rendering appends the next of them to the text. *)
Module Dice.

Definition engine : Engine :=
  Build_Engine string Empty_set (fun text => inr text) (fun text _ => inr text).

Definition render_in (text : @Template engine)
  (params : gmap string Py.value) (source : list nat)
  : (@engine_error engine + string) * list nat :=
  (inr (String.append text (Py.str_of_nat (hd 0 source))), tl source).


End Dice.

(** ** Vocabulary for texts *)

Module Str.

(** The characters of a text, in order. *)
Definition chars (s : string) : list ascii := list_ascii_of_string s.

(** [s.count(c)] for a character [c] *)
Fixpoint occurrences (c : ascii) (s : string) : nat :=
  match s with
  | EmptyString => 0
  | String d s' =>
      if Ascii.eqb d c then S (occurrences c s') else occurrences c s'
  end.

(** [sep.join(l)] *)
Fixpoint join (sep : string) (l : list string) : string :=
  match l with
  | [] => EmptyString
  | x :: rest =>
      match rest with
      | [] => x
      | _ :: _ => x +:+ sep +:+ join sep rest
      end
  end.


(** [c] is one of the digits [0] .. [9]. *)
Definition is_digit (c : ascii) : bool :=
  let n := nat_of_ascii c in ((48 <=? n) && (n <=? 57))%nat.

(** What is left of [s] after the leading [p], if [s] starts with [p]. *)
Fixpoint after_prefix (p s : string) : option string :=
  match p with
  | EmptyString => Some s
  | String a p' =>
      match s with
      | String b s' => if Ascii.eqb a b then after_prefix p' s' else None
      | EmptyString => None
      end
  end.

(** The digits [s] starts with. *)
Fixpoint leading_digits (s : string) : string :=
  match s with
  | String c s' =>
      if is_digit c then String c (leading_digits s') else EmptyString
  | EmptyString => EmptyString
  end.

(** The number a reader finds in the header of a unit: the unit has to
    start with [-- <prefix> (#], then at least one digit, then [) --] and
    a newline; the digits are read in decimal. *)
Definition header_ordinal (prefix unit : string) : option nat :=
  match after_prefix ("-- " +:+ prefix +:+ " (#") unit with
  | Some rest =>
      let digits := leading_digits rest in
      match digits, after_prefix (digits +:+ ") --" +:+ Py.nl) rest with
      | String _ _, Some _ =>
          option_map Nat.of_uint (NilEmpty.uint_of_string digits)
      | _, _ => None
      end
  | None => None
  end.

(** The two comment passes of [render], one after the other. *)
Definition strip_comments (rendered : string) : string :=
  Re.sub_empty Re.line_comment (Re.sub_empty Re.block_comment rendered).

End Str.

(** * Properties *)

(** ** The library functions on sample inputs *)

Example strip_sample :
  Py.strip (" " +:+ Py.nl +:+ " a b " +:+ Py.nl) = "a b".
Proof. reflexivity. Qed.

Example split_sample : Py.split ";" "a;b;;" = ["a"; "b"; ""; ""].
Proof. reflexivity. Qed.

Example split_empty : Py.split ";" "" = [""].
Proof. reflexivity. Qed.

Example block_two_comments :
  Re.sub_empty Re.block_comment "a/*b*/c/*d*/e" = "ace".
Proof. reflexivity. Qed.

Example block_nested_opening :
  Re.sub_empty Re.block_comment "/* a /* b */ c */" = "/* a  c */".
Proof. reflexivity. Qed.

Example block_over_lines :
  Re.sub_empty Re.block_comment ("/* a " +:+ Py.nl +:+ " b */x") = "x".
Proof. reflexivity. Qed.

Example line_both_markers :
  Re.sub_empty Re.line_comment ("a--b#c" +:+ Py.nl +:+ "d--e") = "ad--e".
Proof. reflexivity. Qed.

Example line_three_dashes :
  Re.sub_empty Re.line_comment ("---x" +:+ Py.nl +:+ "y") = "y".
Proof. reflexivity. Qed.

Example line_single_dash :
  Re.sub_empty Re.line_comment ("-#x" +:+ Py.nl +:+ "y") = "-y".
Proof. reflexivity. Qed.

(** Scenario D: a comment line, then two statements with a block comment
    over two lines between them. *)
Example scenario_D :
  QueryBuilder.build_and_render (E:=Jinja.engine) Scenario.statement_D None
    (Py.VDict ∅)
  = inr (inr ["-- QueryBuilder (#1) --" +:+ Py.nl +:+ "select 1" +:+ Py.nl;
              "-- QueryBuilder (#2) --" +:+ Py.nl +:+ "select 2" +:+ Py.nl]).
Proof. reflexivity. Qed.

(** ** The loop and the shape of [render] *)

Section RenderFacts.

Context {E : Engine}.

Import QueryBuilder.

Implicit Types (self : t E) (p : Py.value) (segs : list string).

(** The loop leaves [self] alone and appends, segment by segment, what
    [Unit.emit] says. *)
Lemma for_each_loop_body (items : list (nat * string)) acc self :
  for_each items loop_body acc self
  = (self, inr (acc ++ flat_map (Unit.emit (prefix self)) items)%list).
Proof.
  revert acc. induction items as [|[index statement] items IH]; intros acc.
  - cbn. now rewrite app_nil_r.
  - cbn [for_each flat_map]. unfold bind at 1.
    unfold loop_body, Unit.emit, Unit.nonblank. cbn [fst snd].
    destruct (Py.truthy (Py.strip statement)); cbn.
    + rewrite IH. now rewrite <- app_assoc.
    + now rewrite IH.
Qed.

Lemma render_unfold self p : render p self = (self, Unit.outcome self p).
Proof.
  unfold render, Unit.outcome. cbv zeta.
  destruct (Py.isinstance_dict (or_dict p)); cbn [negb]; [|reflexivity].
  unfold bind, attr, call.
  destruct (render_template (template self) (dict_of (or_dict p))) as [e|text];
    cbn; [reflexivity|].
  now rewrite for_each_loop_body.
Qed.

Lemma render_frame self p : after (render p) self = self.
Proof. unfold after. now rewrite render_unfold. Qed.

Lemma render_result self p : result (render p) self = Unit.outcome self p.
Proof. unfold result. now rewrite render_unfold. Qed.

Lemma after_calls_frame (calls : list Py.value) self :
  after_calls calls self = self.
Proof.
  induction calls as [|p calls IH]; cbn; [reflexivity|].
  now rewrite render_frame.
Qed.

(** When [render] returns, the engine produced a text and the units are
    the ones emitted for its segments. *)
Lemma render_returns self p units :
  result (render p) self = inr units ->
  exists text,
    render_template (template self) (dict_of (or_dict p)) = inr text
    /\ units = flat_map (Unit.emit (prefix self))
                 (Py.enumerate (post_process text)).
Proof.
  rewrite render_result. unfold Unit.outcome. cbv zeta.
  destruct (Py.isinstance_dict (or_dict p)); [|discriminate].
  destruct (render_template _ _) as [e|text]; [discriminate|].
  intros [= <-]. now exists text.
Qed.

End RenderFacts.

(** ** Positions of the non-blank segments *)

Section Positions.

Variable pfx : string.

Lemma positions_from_ge (segs : list string) : forall k i,
  In i (Unit.positions_from k segs) -> k <= i.
Proof.
  induction segs as [|s segs IH]; intros k i; cbn; [tauto|].
  destruct (Unit.nonblank s); cbn.
  - intros [<-|Hin]; [lia|]. apply IH in Hin. lia.
  - intros Hin. apply IH in Hin. lia.
Qed.

Lemma positions_from_sorted (segs : list string) : forall k,
  StronglySorted lt (Unit.positions_from k segs).
Proof.
  induction segs as [|s segs IH]; intros k; cbn; [constructor|].
  destruct (Unit.nonblank s); [|apply IH].
  constructor; [apply IH|].
  apply Forall_forall. intros i Hin.
  apply list_elem_of_In, positions_from_ge in Hin. lia.
Qed.

Lemma positions_from_spec (segs : list string) : forall k i,
  In i (Unit.positions_from k segs)
  <-> k <= i /\ exists s, segs !! (i - k) = Some s /\ Unit.nonblank s = true.
Proof.
  induction segs as [|s segs IH]; intros k i; cbn [Unit.positions_from].
  - split; [intros []|]. intros (_ & s & Hs & _). discriminate.
  - assert (Hstep : forall j, S k <= j ->
              (s :: segs) !! (j - k) = segs !! (j - S k)).
    { intros j Hj. replace (j - k) with (S (j - S k)) by lia. reflexivity. }
    destruct (Unit.nonblank s) eqn:Hs; cbn [In]; rewrite IH; split.
    + intros [<-|[Hle (s' & Hlk & Hnb)]].
      * split; [lia|]. exists s. rewrite Nat.sub_diag. now split.
      * split; [lia|]. exists s'. now rewrite Hstep.
    + intros [Hle (s' & Hlk & Hnb)].
      destruct (Nat.eq_dec k i) as [->|Hne]; [now left|right].
      split; [lia|]. exists s'. rewrite <- Hstep by lia. now split.
    + intros [Hle (s' & Hlk & Hnb)].
      split; [lia|]. exists s'. now rewrite Hstep.
    + intros [Hle (s' & Hlk & Hnb)].
      destruct (Nat.eq_dec k i) as [->|Hne].
      * rewrite Nat.sub_diag in Hlk. cbn in Hlk. congruence.
      * split; [lia|]. exists s'. rewrite <- Hstep by lia. now split.
Qed.

(** The units emitted for the segments are the units at the non-blank
    positions, in that order. *)
Lemma emit_positions_from (segs : list string) : forall k,
  flat_map (Unit.emit pfx) (Py.enumerate_from k segs)
  = map (fun i => QueryBuilder.stmt pfx (i + 1)
                    (Py.strip (nth (i - k) segs EmptyString)))
      (Unit.positions_from k segs).
Proof.
  induction segs as [|s segs IH]; intros k; cbn [Py.enumerate_from flat_map
    Unit.positions_from]; [reflexivity|].
  assert (Htail :
    map (fun i => QueryBuilder.stmt pfx (i + 1)
                    (Py.strip (nth (i - S k) segs EmptyString)))
      (Unit.positions_from (S k) segs)
    = map (fun i => QueryBuilder.stmt pfx (i + 1)
                      (Py.strip (nth (i - k) (s :: segs) EmptyString)))
        (Unit.positions_from (S k) segs)).
  { apply map_ext_in. intros i Hin. apply positions_from_ge in Hin.
    replace (i - k) with (S (i - S k)) by lia. reflexivity. }
  unfold Unit.emit at 1. cbn [fst snd].
  destruct (Unit.nonblank s); cbn [app map]; rewrite IH, Htail.
  - now rewrite Nat.sub_diag.
  - reflexivity.
Qed.

Lemma emit_positions (segs : list string) :
  flat_map (Unit.emit pfx) (Py.enumerate segs)
  = map (Unit.at_position pfx segs) (Unit.positions segs).
Proof.
  unfold Py.enumerate, Unit.positions, Unit.at_position.
  rewrite emit_positions_from. apply map_ext. intros i.
  now rewrite Nat.sub_0_r.
Qed.

End Positions.

(** ** The two comment patterns *)

Section Patterns.

Import Re.

Lemma length_app (a b : string) :
  String.length (a +:+ b) = String.length a + String.length b.
Proof. induction a as [|c a IH]; simpl; [reflexivity|now f_equal]. Qed.

Lemma append_assoc (a b c : string) : (a +:+ b) +:+ c = a +:+ b +:+ c.
Proof. induction a as [|x a IH]; simpl; [reflexivity|now f_equal]. Qed.

Lemma append_nil_r (a : string) : a +:+ EmptyString = a.
Proof. induction a as [|x a IH]; simpl; [reflexivity|now f_equal]. Qed.

Lemma matches_lazy cs k s :
  matches (LazyStar cs) k s
  = match k s with
    | Some rest => Some rest
    | None =>
        match s with
        | String c s' =>
            if cset_mem cs c then matches (LazyStar cs) k s' else None
        | EmptyString => None
        end
    end.
Proof. destruct s; reflexivity. Qed.

(** [.*?\n] stops at the first newline. *)
Lemma lazy_to_newline s :
  matches (LazyStar AnyButNewline) (matches (Atom (Exactly Py.LF)) Some) s
  = after_newline s.
Proof.
  induction s as [|c s IH]; [reflexivity|].
  rewrite matches_lazy. cbn [matches cset_mem after_newline].
  destruct (Ascii.eqb c Py.LF); [reflexivity|]. cbn [negb]. exact IH.
Qed.

(** [[^*]*?[*]\/] goes to the first star and wants a slash after it. *)
Lemma lazy_to_close s :
  matches (LazyStar (AllBut "*"))
    (matches (Cat (Atom (Exactly "*")) (Atom (Exactly "/"))) Some) s
  = after_close s.
Proof.
  induction s as [|c s IH]; [reflexivity|].
  rewrite matches_lazy. cbn [matches cset_mem after_close].
  destruct (Ascii.eqb c "*"); cbn [negb].
  - destruct s as [|d rest]; [reflexivity|].
    now destruct (Ascii.eqb d "/").
  - exact IH.
Qed.

(** The line-comment pattern at the head of a text. *)
Lemma match_line_comment s :
  match_at line_comment s
  = match s with
    | String c s' =>
        if Ascii.eqb c "#" then after_newline s'
        else if Ascii.eqb c "-" then
          match s' with
          | String d rest => if Ascii.eqb d "-" then after_newline rest else None
          | EmptyString => None
          end
        else None
    | EmptyString => None
    end.
Proof.
  unfold match_at, line_comment.
  destruct s as [|c s]; [reflexivity|].
  cbn [matches cset_mem]. fold (matches (LazyStar AnyButNewline)).
  destruct (Ascii.eqb_spec c "#") as [->|Hhash].
  - cbn. now rewrite <- lazy_to_newline.
  - destruct (Ascii.eqb c "-"); [|reflexivity].
    destruct s as [|d rest]; [reflexivity|].
    destruct (Ascii.eqb d "-"); [|reflexivity].
    pose proof (lazy_to_newline rest) as Hlazy.
    cbn [matches cset_mem] in Hlazy. rewrite Hlazy.
    now destruct (after_newline rest).
Qed.

(** The block-comment pattern at the head of a text. *)
Lemma match_block_comment s :
  match_at block_comment s
  = match s with
    | String c (String d rest) =>
        if Ascii.eqb c "/" && Ascii.eqb d "*" then after_close rest else None
    | _ => None
    end.
Proof.
  unfold match_at, block_comment.
  destruct s as [|c [|d rest]]; cbn [matches cset_mem].
  - reflexivity.
  - now destruct (Ascii.eqb c "/").
  - destruct (Ascii.eqb c "/"); [|reflexivity].
    destruct (Ascii.eqb d "*"); [|reflexivity].
    cbn [andb]. now rewrite <- lazy_to_close.
Qed.

(** *** Dropping a match, copying a character *)

Lemma sub_skip_app r (a b : string) :
  sub_skip r (String.length a) (a +:+ b) = sub_skip r 0 b.
Proof. induction a as [|c a IH]; simpl; [reflexivity|exact IH]. Qed.

Lemma sub_drop r c (m rest : string) :
  match_at r (String c m +:+ rest) = Some rest ->
  sub_empty r (String c m +:+ rest) = sub_empty r rest.
Proof.
  intros Hm. unfold sub_empty.
  change (String c m +:+ rest) with (String c (m +:+ rest)) in *.
  cbn [sub_skip]. rewrite Hm.
  replace (String.length (String c (m +:+ rest)) - String.length rest)
    with (S (String.length m)).
  - apply sub_skip_app.
  - simpl. rewrite length_app. lia.
Qed.

Lemma sub_skip_0 r c s :
  sub_skip r 0 (String c s)
  = match match_at r (String c s) with
    | Some rest =>
        match String.length (String c s) - String.length rest with
        | S n => sub_skip r n s
        | O => String c (sub_skip r 0 s)
        end
    | None => String c (sub_skip r 0 s)
    end.
Proof. reflexivity. Qed.

Lemma sub_copy r c s :
  match_at r (String c s) = None ->
  sub_empty r (String c s) = String c (sub_empty r s).
Proof. intros Hm. unfold sub_empty. cbn [sub_skip]. now rewrite Hm. Qed.

(** *** Where a line or a comment ends *)

Lemma after_newline_found (body post : string) :
  avoids Py.LF body = true ->
  after_newline (body +:+ Py.nl +:+ post) = Some post.
Proof.
  induction body as [|c body IH]; simpl; [reflexivity|].
  destruct (Ascii.eqb c Py.LF); [discriminate|]. exact IH.
Qed.

Lemma after_newline_none (s : string) :
  avoids Py.LF s = true -> after_newline s = None.
Proof.
  induction s as [|c s IH]; simpl; [reflexivity|].
  destruct (Ascii.eqb c Py.LF); [discriminate|]. exact IH.
Qed.

Lemma after_newline_app (s last : string) :
  avoids Py.LF last = true ->
  after_newline (s +:+ last)
  = match after_newline s with
    | Some rest => Some (rest +:+ last)
    | None => None
    end.
Proof.
  intros Hlast. induction s as [|c s IH]; simpl.
  - now apply after_newline_none.
  - destruct (Ascii.eqb c Py.LF); [reflexivity|exact IH].
Qed.

Lemma after_newline_shorter (s rest : string) :
  after_newline s = Some rest -> String.length rest < String.length s.
Proof.
  revert rest. induction s as [|c s IH]; simpl; intros rest; [discriminate|].
  destruct (Ascii.eqb c Py.LF).
  - intros [= <-]. lia.
  - intros Hrest. apply IH in Hrest. lia.
Qed.

Lemma after_close_found (body post : string) :
  avoids "*" body = true ->
  after_close (body +:+ "*/" +:+ post) = Some post.
Proof.
  induction body as [|c body IH]; simpl; [reflexivity|].
  destruct (Ascii.eqb c "*"); [discriminate|]. exact IH.
Qed.

Lemma after_close_lone_star (body : string) (c : ascii) (rest : string) :
  avoids "*" body = true ->
  c <> "/"%char ->
  after_close (body +:+ "*" +:+ String c rest) = None.
Proof.
  intros Hbody Hc. induction body as [|d body IH]; simpl in *.
  - now destruct (Ascii.eqb_spec c "/").
  - destruct (Ascii.eqb d "*"); [discriminate|]. now apply IH.
Qed.

(** *** Block comments *)

(** A comment at the head of the text whose interior has no star is
    dropped, over as many lines as it spans. *)
Lemma block_comment_dropped (body post : string) :
  avoids "*" body = true ->
  sub_empty block_comment ("/*" +:+ body +:+ "*/" +:+ post)
  = sub_empty block_comment post.
Proof.
  intros Hbody.
  replace ("/*" +:+ body +:+ "*/" +:+ post)
    with (String "/" ("*" +:+ body +:+ "*/") +:+ post)
    by (simpl; now rewrite append_assoc).
  apply sub_drop. rewrite match_block_comment. simpl.
  rewrite append_assoc. now apply after_close_found.
Qed.

(** With a star inside that no slash follows, the pattern does not match
    at the opening mark, whatever comes later. *)
Lemma block_comment_lone_star (body : string) (c : ascii) (rest : string) :
  avoids "*" body = true ->
  c <> "/"%char ->
  match_at block_comment ("/*" +:+ body +:+ "*" +:+ String c rest) = None.
Proof.
  intros Hbody Hc. rewrite match_block_comment. simpl.
  now apply after_close_lone_star.
Qed.

(** *** Line comments *)

Lemma line_comment_shorter (s rest : string) :
  match_at line_comment s = Some rest ->
  String.length rest < String.length s.
Proof.
  rewrite match_line_comment. destruct s as [|c s]; [discriminate|].
  destruct (Ascii.eqb c "#").
  - intros H. apply after_newline_shorter in H. simpl. lia.
  - destruct (Ascii.eqb c "-"); [|discriminate].
    destruct s as [|d s]; [discriminate|].
    destruct (Ascii.eqb d "-"); [|discriminate].
    intros H. apply after_newline_shorter in H. simpl. lia.
Qed.

Lemma line_comment_app (s last : string) :
  avoids Py.LF last = true ->
  match_at line_comment (s +:+ last)
  = match match_at line_comment s with
    | Some rest => Some (rest +:+ last)
    | None => None
    end.
Proof.
  intros Hlast. rewrite !match_line_comment.
  destruct s as [|c s]; simpl.
  - destruct last as [|c last]; [reflexivity|].
    simpl in Hlast. apply andb_prop in Hlast as [_ Hlast].
    destruct (Ascii.eqb c "#"); [now apply after_newline_none|].
    destruct (Ascii.eqb c "-"); [|reflexivity].
    destruct last as [|d last]; [reflexivity|].
    simpl in Hlast. apply andb_prop in Hlast as [_ Hlast].
    destruct (Ascii.eqb d "-"); [now apply after_newline_none|reflexivity].
  - destruct (Ascii.eqb c "#"); [now apply after_newline_app|].
    destruct (Ascii.eqb c "-"); [|reflexivity].
    destruct s as [|d s]; simpl.
    + destruct last as [|d last]; [reflexivity|].
      simpl in Hlast. apply andb_prop in Hlast as [_ Hlast].
      destruct (Ascii.eqb d "-"); [now apply after_newline_none|reflexivity].
    + destruct (Ascii.eqb d "-"); [now apply after_newline_app|reflexivity].
Qed.

(** A [--] or [#] comment that its line's newline closes is dropped,
    newline included. *)
Lemma line_comment_dropped (marker body post : string) :
  marker = "--" \/ marker = "#" ->
  avoids Py.LF body = true ->
  sub_empty line_comment (marker +:+ body +:+ Py.nl +:+ post)
  = sub_empty line_comment post.
Proof.
  intros Hmarker Hbody.
  destruct Hmarker as [-> | ->].
  - replace ("--" +:+ body +:+ Py.nl +:+ post)
      with (String "-" ("-" +:+ body +:+ Py.nl) +:+ post)
      by (simpl; now rewrite !append_assoc).
    apply sub_drop. rewrite match_line_comment. simpl.
    rewrite !append_assoc. now apply after_newline_found.
  - replace ("#" +:+ body +:+ Py.nl +:+ post)
      with (String "#" (body +:+ Py.nl) +:+ post)
      by (simpl; now rewrite !append_assoc).
    apply sub_drop. rewrite match_line_comment. simpl.
    rewrite !append_assoc. now apply after_newline_found.
Qed.

(** What follows the last newline of the text is copied as it is: a
    comment there is not dropped. *)
Lemma line_comment_skip_last (last : string) :
  avoids Py.LF last = true ->
  forall (s : string) (n : nat), n <= String.length s ->
  sub_skip line_comment n (s +:+ last) = sub_skip line_comment n s +:+ last.
Proof.
  intros Hlast.
  assert (Hbase : forall t, avoids Py.LF t = true ->
                            sub_skip line_comment 0 t = t).
  { induction t as [|c t IH]; [reflexivity|]. intros Ht.
    cbn [sub_skip].
    pose proof (line_comment_app "" (String c t) Ht) as Hm.
    change ("" +:+ String c t) with (String c t) in Hm.
    change (match_at line_comment "") with (@None string) in Hm.
    rewrite Hm.
    simpl in Ht. apply andb_prop in Ht as [_ Ht]. now rewrite IH. }
  induction s as [|c s IH]; intros n Hn.
  - simpl in Hn. replace n with 0 by lia. simpl. now apply Hbase.
  - destruct n as [|n].
    + rewrite (sub_skip_0 _ c s).
      change (String c s +:+ last) with (String c (s +:+ last)).
      rewrite (sub_skip_0 _ c (s +:+ last)).
      change (String c (s +:+ last)) with (String c s +:+ last).
      rewrite line_comment_app by exact Hlast.
      destruct (match_at line_comment (String c s)) as [rest|] eqn:Hm.
      * apply line_comment_shorter in Hm.
        replace (String.length (String c s +:+ last)
                 - String.length (rest +:+ last))
          with (String.length (String c s) - String.length rest)
          by (rewrite !length_app; lia).
        destruct (String.length (String c s) - String.length rest)
          as [|k] eqn:Hk; simpl in Hm, Hk; [lia|].
        apply IH. lia.
      * simpl. f_equal. apply IH. lia.
    + simpl in Hn. simpl. apply IH. lia.
Qed.

Lemma line_comment_last_line (s last : string) :
  avoids Py.LF last = true ->
  sub_empty line_comment (s +:+ last) = sub_empty line_comment s +:+ last.
Proof.
  intros Hlast. unfold sub_empty. apply line_comment_skip_last; [exact Hlast|lia].
Qed.

End Patterns.

(** ** The statements of the specification *)

Section Claims.

Import QueryBuilder.

Lemma truthy_spec (s : string) : Py.truthy s = true <-> s <> EmptyString.
Proof. destruct s; cbn; split; congruence. Qed.

Lemma positions_length (segs : list string) : forall k,
  length (Unit.positions_from k segs) = length (List.filter Unit.nonblank segs).
Proof.
  induction segs as [|s segs IH]; intros k; cbn; [reflexivity|].
  destruct (Unit.nonblank s); cbn; now rewrite IH.
Qed.

Lemma init_inv {E : Engine} statements pfx (qb : t E) :
  init statements pfx = inr qb ->
  original qb = statements
  /\ prefix qb = or_else pfx class_name
  /\ compile statements = inr (template qb).
Proof.
  unfold init. destruct (compile statements) as [e|tpl]; [discriminate|].
  intros [= <-]. now cbn.
Qed.

(** C1. Scenario A: for the template
    [select * from {{table}} where date = "{{date}}"], no prefix given,
    and the bindings table = test, date = 2016-11-23, once the engine has
    put the two values in place [render] returns exactly one unit: the
    header line [-- QueryBuilder (#1) --], the statement, one newline. *)
Theorem render_scenario_A {E : Engine} (qb : t E) :
  init Scenario.statement_A None = inr qb ->
  render_template (template qb) Scenario.params_A = inr Scenario.rendered_A ->
  result (render (Py.VDict Scenario.params_A)) qb = inr [Scenario.unit_A].
Proof.
  intros Hinit Hengine. apply init_inv in Hinit as (_ & Hprefix & _).
  rewrite render_result. unfold Unit.outcome. cbn [or_dict Py.isinstance_dict dict_of].
  rewrite Hengine, Hprefix. reflexivity.
Qed.

Lemma render_scenario_A_witness :
  init Scenario.statement_A None = inr Scenario.renderer_A
  /\ render_template (template Scenario.renderer_A) Scenario.params_A
     = inr Scenario.rendered_A
  /\ result (render (Py.VDict Scenario.params_A)) Scenario.renderer_A
     = inr [Scenario.unit_A].
Proof.
  assert (Hinit : init Scenario.statement_A None = inr Scenario.renderer_A)
    by reflexivity.
  assert (Hengine : render_template (template Scenario.renderer_A)
                      Scenario.params_A
                    = inr Scenario.rendered_A) by reflexivity.
  split; [exact Hinit|]. split; [exact Hengine|].
  exact (render_scenario_A Scenario.renderer_A Hinit Hengine).
Defined.

(** C8. Whenever [render] returns, every unit comes from a segment of the
    [;] split that is not empty after trimming, there are as many units
    as such segments, and when every segment is blank the result is the
    empty list. *)
Theorem blank_segments_emit_nothing {E : Engine} (self : t E) (p : Py.value)
  (units : list string) :
  result (render p) self = inr units ->
  exists text,
    render_template (template self) (dict_of (or_dict p)) = inr text
    /\ (forall u, In u units ->
          exists i s, post_process text !! i = Some s
                      /\ Py.strip s <> EmptyString
                      /\ u = stmt (prefix self) (i + 1) (Py.strip s))
    /\ length units = length (List.filter Unit.nonblank (post_process text))
    /\ ((forall s, In s (post_process text) -> Py.strip s = EmptyString) ->
        units = []).
Proof.
  intros Hret. apply render_returns in Hret as (text & Hengine & ->).
  exists text. split; [exact Hengine|]. rewrite emit_positions.
  split; [|split].
  - intros u Hu. apply in_map_iff in Hu as (i & <- & Hi).
    apply positions_from_spec in Hi as (_ & s & Hs & Hnb).
    rewrite Nat.sub_0_r in Hs. exists i, s. split; [exact Hs|].
    split; [now apply truthy_spec|].
    unfold Unit.at_position. f_equal. f_equal. now apply nth_lookup_Some.
  - rewrite length_map. apply positions_length.
  - intros Hblank.
    destruct (Unit.positions (post_process text)) as [|i rest] eqn:Hpos;
      [reflexivity|exfalso].
    assert (Hi : In i (Unit.positions (post_process text)))
      by (rewrite Hpos; now left).
    apply positions_from_spec in Hi as (_ & s & Hs & Hnb).
    apply truthy_spec in Hnb. apply Hnb, Hblank.
    apply list_elem_of_In. eapply list_elem_of_lookup_2. exact Hs.
Qed.

Lemma blank_segments_emit_nothing_witness :
  result (render Py.VNone) (Scenario.plain " ; ;" "q") = inr []
  /\ exists text,
       render_template (template (Scenario.plain " ; ;" "q"))
         (dict_of (or_dict Py.VNone)) = inr text
       /\ (forall u, In u [] ->
             exists i s, post_process text !! i = Some s
                         /\ Py.strip s <> EmptyString
                         /\ u = stmt (prefix (Scenario.plain " ; ;" "q"))
                                  (i + 1) (Py.strip s))
       /\ length (@nil string)
          = length (List.filter Unit.nonblank (post_process text))
       /\ ((forall s, In s (post_process text) -> Py.strip s = EmptyString) ->
           @nil string = []).
Proof.
  assert (Hret : result (render Py.VNone) (Scenario.plain " ; ;" "q") = inr [])
    by reflexivity.
  split; [exact Hret|].
  exact (blank_segments_emit_nothing _ _ _ Hret).
Defined.

(** C5, as amended. [render] raises the [TypeError] of its argument check
    exactly when [params] is neither [None] nor an instance of [dict]; a
    mapping that is not a dict is rejected as well.  The message then
    names the type received, the object is as before, and the outcome
    does not involve the engine: it is the same for every engine and
    template.  For the list [[1, 2, 3]] the message names
    [<class 'list'>]. *)
Theorem render_type_error {E : Engine} (self : t E) (p : Py.value) :
  ((exists msg, result (render p) self = inl (TypeError msg))
   <-> p <> Py.VNone /\ Py.isinstance_dict p = false)
  /\ ((exists msg, result (render p) self = inl (TypeError msg))
      -> render p self
         = (self, inl (TypeError ("Provided `params` is not dict (type="
                                  +:+ Py.type_str p +:+ ")"))))
  /\ render (Py.VList [Py.VInt 1; Py.VInt 2; Py.VInt 3]) self
     = (self, inl (TypeError
                     "Provided `params` is not dict (type=<class 'list'>)"))
  /\ (forall d, render (Py.VMappingProxy d) self
                = (self, inl (TypeError
                     "Provided `params` is not dict (type=<class 'mappingproxy'>)"))).
Proof.
  assert (Hiff : (exists msg, result (render p) self = inl (TypeError msg))
                 <-> p <> Py.VNone /\ Py.isinstance_dict p = false).
  { rewrite render_result. unfold Unit.outcome. cbv zeta.
    destruct p; cbn [or_dict Py.isinstance_dict]; split;
      try (intros _; split; [discriminate|reflexivity]);
      try (intros _; eexists; reflexivity);
      try (intros [Hnone Hdict]; congruence).
    - intros [msg Hmsg].
      destruct (render_template (template self) (dict_of (Py.VDict ∅)));
        discriminate.
    - intros [msg Hmsg].
      destruct (render_template (template self) (dict_of (Py.VDict d)));
        discriminate. }
  split; [exact Hiff|]. split; [|split; [reflexivity|intros d; reflexivity]].
  intros Hraises. apply Hiff in Hraises as [Hnone Hdict].
  rewrite render_unfold. unfold Unit.outcome. cbv zeta.
  destruct p; cbn in Hdict; try congruence; reflexivity.
Qed.

(** C5, as first stated, read "not a mapping" for "not a dict".  A
    [MappingProxyType] is a mapping, and [render] raises on it. *)
Lemma mapping_proxy_is_rejected :
  Py.is_mapping (Py.VMappingProxy ∅) = true
  /\ result (render (Py.VMappingProxy ∅)) (Scenario.plain "select 1" "q")
     = inl (TypeError
              "Provided `params` is not dict (type=<class 'mappingproxy'>)")
  /\ ~ ((exists msg,
           result (render (Py.VMappingProxy ∅)) (Scenario.plain "select 1" "q")
           = inl (TypeError msg))
        <-> Py.VMappingProxy ∅ <> Py.VNone
            /\ Py.is_mapping (Py.VMappingProxy ∅) = false).
Proof.
  split; [reflexivity|]. split; [reflexivity|].
  intros [Hraises _].
  destruct Hraises as [_ Hmapping]; [eexists; reflexivity|].
  discriminate Hmapping.
Qed.

(** C6. A call of [render] without argument and a call with an empty
    dict come to the same: same result or same error, same object
    afterwards. *)
Theorem render_default_is_empty_dict {E : Engine} (self : t E) :
  render_default self = render (Py.VDict ∅) self.
Proof. unfold render_default, render. reflexivity. Qed.

(** C9. A renderer that [__init__] built holds the template text as it
    was given (comments included), the prefix or its default, and the
    compiled template; after any number of calls of [render], with any
    arguments, it is the same object. *)
Theorem render_preserves_renderer {E : Engine} (statements : string)
  (pfx : option string) (qb : t E) (calls : list Py.value) :
  init statements pfx = inr qb ->
  after_calls calls qb = qb
  /\ original (after_calls calls qb) = statements
  /\ prefix (after_calls calls qb) = or_else pfx class_name
  /\ compile statements = inr (template (after_calls calls qb)).
Proof.
  intros Hinit. rewrite after_calls_frame.
  split; [reflexivity|]. now apply init_inv.
Qed.

Lemma render_preserves_renderer_witness :
  init Scenario.statement_D (Some "example.sql")
  = inr (Scenario.plain Scenario.statement_D "example.sql")
  /\ after_calls [Py.VDict ∅; Py.VList []; Py.VNone]
       (Scenario.plain Scenario.statement_D "example.sql")
     = Scenario.plain Scenario.statement_D "example.sql"
  /\ original
       (after_calls [Py.VDict ∅; Py.VList []; Py.VNone]
          (Scenario.plain Scenario.statement_D "example.sql"))
     = Scenario.statement_D
  /\ prefix
       (after_calls [Py.VDict ∅; Py.VList []; Py.VNone]
          (Scenario.plain Scenario.statement_D "example.sql"))
     = or_else (Some "example.sql") class_name
  /\ compile Scenario.statement_D
     = inr (template (after_calls [Py.VDict ∅; Py.VList []; Py.VNone]
                    (Scenario.plain Scenario.statement_D "example.sql"))).
Proof.
  assert (Hinit : init Scenario.statement_D (Some "example.sql")
                  = inr (Scenario.plain Scenario.statement_D "example.sql"))
    by reflexivity.
  split; [exact Hinit|].
  exact (render_preserves_renderer _ _ _
           [Py.VDict ∅; Py.VList []; Py.VNone] Hinit).
Defined.

(** C10. A renderer built with the empty string as prefix carries the
    default label [QueryBuilder], as one built with no prefix does. *)
Theorem empty_prefix_defaults {E : Engine} (statements : string) (qb : t E) :
  init statements (Some EmptyString) = inr qb ->
  prefix qb = "QueryBuilder" /\ init statements None = inr qb.
Proof.
  intros Hinit. split; [|exact Hinit].
  now apply init_inv in Hinit as (_ & -> & _).
Qed.

Lemma empty_prefix_defaults_witness :
  init Scenario.gap (Some EmptyString)
  = inr (Scenario.plain Scenario.gap "QueryBuilder")
  /\ prefix (Scenario.plain Scenario.gap "QueryBuilder") = "QueryBuilder"
  /\ init Scenario.gap None = inr (Scenario.plain Scenario.gap "QueryBuilder").
Proof.
  assert (Hinit : init Scenario.gap (Some EmptyString)
                  = inr (Scenario.plain Scenario.gap "QueryBuilder"))
    by reflexivity.
  split; [exact Hinit|].
  exact (empty_prefix_defaults Scenario.gap _ Hinit).
Defined.

(** C3. On the text [/* a * b */select 1] the block-comment pass removes
    nothing: the star inside the comment stops the pattern, and the
    comment reaches the unit that [render] returns. *)
Theorem starred_block_comment_survives :
  Re.sub_empty Re.block_comment Scenario.starred = Scenario.starred
  /\ build_and_render (E:=Jinja.engine) Scenario.starred None (Py.VDict ∅)
     = inr (inr ["-- QueryBuilder (#1) --" +:+ Py.nl
                 +:+ "/* a * b */select 1" +:+ Py.nl]).
Proof. split; reflexivity. Qed.

(** C4. On the text [select 1; -- done], whose last line has no newline,
    the line-comment pass removes nothing, and [render] returns the
    comment as a second unit; with the newline the comment goes. *)
Theorem trailing_line_comment_survives :
  Re.sub_empty Re.line_comment Scenario.trailing = Scenario.trailing
  /\ build_and_render (E:=Jinja.engine) Scenario.trailing None (Py.VDict ∅)
     = inr (inr ["-- QueryBuilder (#1) --" +:+ Py.nl +:+ "select 1" +:+ Py.nl;
                 "-- QueryBuilder (#2) --" +:+ Py.nl +:+ "-- done" +:+ Py.nl])
  /\ Re.sub_empty Re.line_comment Scenario.trailing_nl = "select 1; ".
Proof. repeat split; reflexivity. Qed.

End Claims.

(** ** More on the comment passes *)

Section Passes.

Import Re.

Lemma sub_skip_sublist r (s : string) : forall n,
  sublist (Str.chars (sub_skip r n s)) (Str.chars s).
Proof.
  induction s as [|c s IH]; intros n; [constructor|].
  cbn [sub_skip]. destruct n as [|n].
  - destruct (match_at r (String c s)) as [rest|].
    + destruct (String.length (String c s) - String.length rest) as [|k].
      * apply sublist_skip, IH.
      * apply sublist_cons, IH.
    + apply sublist_skip, IH.
  - apply sublist_cons, IH.
Qed.

Lemma avoids_app c (a b : string) :
  avoids c (a +:+ b) = avoids c a && avoids c b.
Proof.
  induction a as [|d a IH]; simpl; [reflexivity|].
  now rewrite IH, andb_assoc.
Qed.

Lemma after_close_none (s : string) :
  avoids "*" s = true -> after_close s = None.
Proof.
  induction s as [|c s IH]; simpl; [reflexivity|].
  destruct (Ascii.eqb c "*"); [discriminate|]. exact IH.
Qed.

(** Nothing that starts with another character than [/] opens a block
    comment; nothing but [-] and [#] opens a line comment. *)
Lemma block_comment_head c s :
  c <> "/"%char -> match_at block_comment (String c s) = None.
Proof.
  intros Hc. rewrite match_block_comment.
  destruct s as [|d rest]; [reflexivity|].
  now destruct (Ascii.eqb_spec c "/").
Qed.

Lemma line_comment_head c s :
  c <> "-"%char -> c <> "#"%char ->
  match_at line_comment (String c s) = None.
Proof.
  intros Hdash Hhash. rewrite match_line_comment.
  destruct (Ascii.eqb_spec c "#"); [contradiction|].
  now destruct (Ascii.eqb_spec c "-").
Qed.

Lemma avoids_cons c d s :
  avoids c (String d s) = true -> d <> c /\ avoids c s = true.
Proof.
  simpl. intros H. apply andb_prop in H as [Hd Hs]. split; [|exact Hs].
  intros ->. now rewrite Ascii.eqb_refl in Hd.
Qed.

Lemma block_comment_pass_over (pre t : string) :
  avoids "/" pre = true ->
  sub_empty block_comment (pre +:+ t) = pre +:+ sub_empty block_comment t.
Proof.
  induction pre as [|c pre IH]; intros Hpre; [reflexivity|].
  apply avoids_cons in Hpre as [Hc Hpre]. simpl.
  rewrite sub_copy by now apply block_comment_head.
  now rewrite IH.
Qed.

Lemma line_comment_pass_over (pre t : string) :
  avoids "-" pre = true -> avoids "#" pre = true ->
  sub_empty line_comment (pre +:+ t) = pre +:+ sub_empty line_comment t.
Proof.
  induction pre as [|c pre IH]; intros Hdash Hhash; [reflexivity|].
  apply avoids_cons in Hdash as [Hc1 Hdash].
  apply avoids_cons in Hhash as [Hc2 Hhash]. simpl.
  rewrite sub_copy by now apply line_comment_head.
  now rewrite IH.
Qed.


Lemma line_comment_no_newline (s : string) :
  avoids Py.LF s = true -> sub_empty line_comment s = s.
Proof.
  intros Hs.
  change s with (EmptyString +:+ s) at 1.
  now rewrite line_comment_last_line.
Qed.

(** X1. The two passes only delete: the text they leave is a subsequence
    of the text the engine produced, so no character is added, changed
    or moved. *)
Theorem strip_comments_only_deletes (rendered : string) :
  sublist (Str.chars (Str.strip_comments rendered)) (Str.chars rendered)
  /\ String.length (Str.strip_comments rendered) <= String.length rendered.
Proof.
  assert (Hsub : sublist (Str.chars (Str.strip_comments rendered))
                   (Str.chars rendered)).
  { unfold Str.strip_comments, sub_empty.
    etransitivity; apply sub_skip_sublist. }
  split; [exact Hsub|].
  apply sublist_length in Hsub. unfold Str.chars in Hsub.
  assert (Hlen : forall t, length (list_ascii_of_string t) = String.length t).
  { induction t as [|c t IH]; simpl; [reflexivity|now f_equal]. }
  now rewrite !Hlen in Hsub.
Qed.

(** X2. A block comment without a star inside, standing after text that
    holds no slash, is removed whole, over as many lines as it spans;
    the text in front is kept and the pass goes on behind the comment. *)
Theorem block_comment_removed (pre body post : string) :
  avoids "/" pre = true ->
  avoids "*" body = true ->
  sub_empty block_comment (pre +:+ "/*" +:+ body +:+ "*/" +:+ post)
  = pre +:+ sub_empty block_comment post.
Proof.
  intros Hpre Hbody. rewrite block_comment_pass_over by exact Hpre.
  now rewrite block_comment_dropped.
Qed.

Lemma block_comment_removed_witness :
  avoids "/" "select 1; " = true
  /\ avoids "*" (" block " +:+ Py.nl +:+ " comment ") = true
  /\ sub_empty block_comment
       ("select 1; " +:+ "/*" +:+ (" block " +:+ Py.nl +:+ " comment ")
        +:+ "*/" +:+ " select 2;")
     = "select 1; " +:+ sub_empty block_comment " select 2;".
Proof.
  split; [reflexivity|]. split; [reflexivity|].
  apply (block_comment_removed "select 1; "
           (" block " +:+ Py.nl +:+ " comment ") " select 2;"); reflexivity.
Defined.

(** X3. For the segments that [render] works on, such a block comment is
    as good as absent: the text with the comment and the text without it
    are split into the same segments. *)
Theorem block_comment_transparent (pre body post : string) :
  avoids "/" pre = true ->
  avoids "*" body = true ->
  QueryBuilder.post_process (pre +:+ "/*" +:+ body +:+ "*/" +:+ post)
  = QueryBuilder.post_process (pre +:+ post).
Proof.
  intros Hpre Hbody. unfold QueryBuilder.post_process.
  rewrite block_comment_pass_over by exact Hpre.
  rewrite block_comment_dropped by exact Hbody.
  now rewrite block_comment_pass_over by exact Hpre.
Qed.

Lemma block_comment_transparent_witness :
  avoids "/" "select 1; " = true
  /\ avoids "*" " -- not a line comment; " = true
  /\ QueryBuilder.post_process
       ("select 1; " +:+ "/*" +:+ " -- not a line comment; " +:+ "*/"
        +:+ "select 2")
     = QueryBuilder.post_process ("select 1; " +:+ "select 2").
Proof.
  split; [reflexivity|]. split; [reflexivity|].
  apply (block_comment_transparent "select 1; " " -- not a line comment; "
           "select 2"); reflexivity.
Defined.

(** X4. A block comment whose interior holds no slash before its first
    star, and whose first star is not followed by a slash, stays in the
    text up to that star, whatever comes later: after text without a
    slash, the opening mark and the interior up to the star are copied
    and the pass goes on at the star. *)
Theorem block_comment_star_inside_kept (pre body : string) (c : ascii)
  (rest : string) :
  avoids "/" pre = true ->
  avoids "*" body = true ->
  avoids "/" body = true ->
  c <> "/"%char ->
  sub_empty block_comment (pre +:+ "/*" +:+ body +:+ "*" +:+ String c rest)
  = pre +:+ "/*" +:+ body
    +:+ sub_empty block_comment ("*" +:+ String c rest).
Proof.
  intros Hpre Hstar Hslash Hc.
  rewrite block_comment_pass_over by exact Hpre. f_equal.
  change ("/*" +:+ body +:+ "*" +:+ String c rest)
    with (String "/" ("*" +:+ body +:+ "*" +:+ String c rest)).
  rewrite sub_copy by now apply (block_comment_lone_star body c rest).
  change ("/*" +:+ body +:+ sub_empty block_comment ("*" +:+ String c rest))
    with (String "/" ("*" +:+ body
                      +:+ sub_empty block_comment ("*" +:+ String c rest))).
  f_equal.
  change ("*" +:+ body +:+ "*" +:+ String c rest)
    with (String "*" (body +:+ "*" +:+ String c rest)).
  rewrite sub_copy by now apply block_comment_head.
  change ("*" +:+ body +:+ sub_empty block_comment ("*" +:+ String c rest))
    with (String "*" (body
                      +:+ sub_empty block_comment ("*" +:+ String c rest))).
  f_equal. now apply block_comment_pass_over.
Qed.

Lemma block_comment_star_inside_kept_witness :
  avoids "/" "x; " = true
  /\ avoids "*" " a " = true
  /\ avoids "/" " a " = true
  /\ " "%char <> "/"%char
  /\ sub_empty block_comment ("x; " +:+ "/*" +:+ " a " +:+ "*"
                              +:+ String " " "b */select 1")
     = "x; " +:+ "/*" +:+ " a "
       +:+ sub_empty block_comment ("*" +:+ String " " "b */select 1").
Proof.
  assert (Hc : " "%char <> "/"%char) by discriminate.
  split; [reflexivity|]. split; [reflexivity|]. split; [reflexivity|].
  split; [exact Hc|].
  apply (block_comment_star_inside_kept "x; " " a " " " "b */select 1");
    [reflexivity..|exact Hc].
Defined.

(** X5. A [--] or [#] comment that ends with its line's newline, standing
    after text that holds neither [-] nor [#], is removed together with
    the newline; the text in front is kept and the pass goes on with the
    next line. *)
Theorem line_comment_removed (pre marker body post : string) :
  marker = "--" \/ marker = "#" ->
  avoids "-" pre = true ->
  avoids "#" pre = true ->
  avoids Py.LF body = true ->
  sub_empty line_comment (pre +:+ marker +:+ body +:+ Py.nl +:+ post)
  = pre +:+ sub_empty line_comment post.
Proof.
  intros Hmarker Hdash Hhash Hbody.
  rewrite line_comment_pass_over by assumption.
  now rewrite line_comment_dropped.
Qed.

Lemma line_comment_removed_witness :
  ("--" = "--" \/ "--" = "#")
  /\ avoids "-" "select 1 " = true
  /\ avoids "#" "select 1 " = true
  /\ avoids Py.LF " first; # one" = true
  /\ sub_empty line_comment
       ("select 1 " +:+ "--" +:+ " first; # one" +:+ Py.nl +:+ "from t")
     = "select 1 " +:+ sub_empty line_comment "from t".
Proof.
  assert (Hmarker : "--" = "--" \/ "--" = "#") by (left; reflexivity).
  split; [exact Hmarker|].
  split; [reflexivity|]. split; [reflexivity|]. split; [reflexivity|].
  apply (line_comment_removed "select 1 " "--" " first; # one" "from t");
    [exact Hmarker|reflexivity..].
Defined.

(** X6. The line-comment pass never touches what follows the last newline
    of the text: a last line without newline is copied as it is, comment
    or not, and a text without any newline is returned unchanged. *)
Theorem line_comment_spares_last_line (s last : string) :
  avoids Py.LF last = true ->
  sub_empty line_comment (s +:+ last) = sub_empty line_comment s +:+ last
  /\ sub_empty line_comment last = last.
Proof.
  intros Hlast. split.
  - now apply line_comment_last_line.
  - now apply line_comment_no_newline.
Qed.

Lemma line_comment_spares_last_line_witness :
  avoids Py.LF "select 2 -- two" = true
  /\ sub_empty line_comment
       (("select 1 -- one" +:+ Py.nl) +:+ "select 2 -- two")
     = sub_empty line_comment ("select 1 -- one" +:+ Py.nl)
       +:+ "select 2 -- two"
  /\ sub_empty line_comment "select 2 -- two" = "select 2 -- two".
Proof.
  split; [reflexivity|].
  apply (line_comment_spares_last_line ("select 1 -- one" +:+ Py.nl)
           "select 2 -- two"); reflexivity.
Defined.

End Passes.

(** ** Splitting and trimming *)

Section Segments.

Import Re.

Lemma split_no_sep sep (s : string) :
  avoids sep s = true -> Py.split sep s = [s].
Proof.
  induction s as [|c s IH]; intros Hs; [reflexivity|].
  simpl in Hs. apply andb_prop in Hs as [Hc Hs]. cbn [Py.split].
  destruct (Ascii.eqb c sep); [discriminate|]. now rewrite IH.
Qed.

Lemma split_avoids sep (s : string) :
  Forall (fun seg => avoids sep seg = true) (Py.split sep s).
Proof.
  induction s as [|c s IH]; cbn [Py.split]; [now repeat constructor|].
  destruct (Ascii.eqb c sep) eqn:Hc; [now constructor|].
  destruct (Py.split sep s) as [|seg segs]; [now repeat constructor; simpl; rewrite Hc|].
  inversion IH as [|? ? Hseg Hsegs]; subst.
  constructor; [|exact Hsegs]. simpl. now rewrite Hc, Hseg.
Qed.

Lemma split_length sep (s : string) :
  length (Py.split sep s) = S (Str.occurrences sep s).
Proof.
  induction s as [|c s IH]; cbn [Py.split Str.occurrences]; [reflexivity|].
  destruct (Ascii.eqb c sep); cbn [length]; [now rewrite IH|].
  destruct (Py.split sep s) as [|seg segs]; [discriminate|exact IH].
Qed.

Lemma sub_skip_occurrences r c (s : string) : forall n,
  Str.occurrences c (sub_skip r n s) <= Str.occurrences c s.
Proof.
  induction s as [|d s IH]; intros n; [reflexivity|].
  assert (Hkeep : Str.occurrences c (String d (sub_skip r 0 s))
                  <= Str.occurrences c (String d s)).
  { cbn [Str.occurrences]. specialize (IH 0).
    destruct (Ascii.eqb d c); lia. }
  assert (Hdrop : forall k, Str.occurrences c (sub_skip r k s)
                            <= Str.occurrences c (String d s)).
  { intros k. cbn [Str.occurrences]. specialize (IH k).
    destruct (Ascii.eqb d c); lia. }
  cbn [sub_skip]. destruct n as [|n]; [|apply Hdrop].
  destruct (match_at r (String d s)) as [rest|]; [|exact Hkeep].
  destruct (String.length (String d s) - String.length rest);
    [exact Hkeep|apply Hdrop].
Qed.

(** *** [strip] *)









(** X7. Joining the segments of a split with the separator gives the
    text back: the split loses nothing but the separators, and keeps the
    empty segments. *)
Theorem split_join (sep : ascii) (s : string) :
  Str.join (String sep EmptyString) (Py.split sep s) = s.
Proof.
  induction s as [|c s IH]; [reflexivity|]. cbn [Py.split].
  pose proof (split_length sep s) as Hlen.
  destruct (Ascii.eqb_spec c sep) as [->|Hc];
    destruct (Py.split sep s) as [|x r]; [discriminate Hlen| |discriminate Hlen|].
  - change (Str.join (String sep EmptyString) (EmptyString :: x :: r))
      with (String sep (Str.join (String sep EmptyString) (x :: r))).
    now rewrite IH.
  - destruct r as [|y r'].
    + cbn in *. now rewrite IH.
    + change (Str.join (String sep EmptyString) (String c x :: y :: r'))
        with (String c (Str.join (String sep EmptyString) (x :: y :: r'))).
      now rewrite IH.
Qed.

(** X8. A text with [n] separators splits into [n + 1] segments, none of
    which holds the separator; a text without separator is its own
    single segment. *)
Theorem split_segments (sep : ascii) (s : string) :
  length (Py.split sep s) = S (Str.occurrences sep s)
  /\ Forall (fun seg => avoids sep seg = true) (Py.split sep s)
  /\ (Str.occurrences sep s = 0 -> Py.split sep s = [s]).
Proof.
  split; [apply split_length|]. split; [apply split_avoids|].
  intros Hnone. apply split_no_sep.
  induction s as [|c s IH]; [reflexivity|].
  cbn [Str.occurrences] in Hnone. simpl.
  destruct (Ascii.eqb c sep); [discriminate|]. now apply IH.
Qed.

End Segments.

(** ** More on what [render] and [__init__] give *)

Section Units.

Import Re QueryBuilder.

Lemma append_inv_head (a x y : string) : a +:+ x = a +:+ y -> x = y.
Proof.
  induction a as [|c a IH]; simpl; [trivial|].
  intros [= H]. now apply IH.
Qed.

Lemma digits_string_of_uint (d : Decimal.uint) :
  Jinja.all_chars Str.is_digit (NilEmpty.string_of_uint d) = true.
Proof. induction d; cbn; try reflexivity; exact IHd. Qed.

Lemma digits_prefix_unique (c : ascii) (d1 : string) : forall d2 x y,
  Str.is_digit c = false ->
  Jinja.all_chars Str.is_digit d1 = true ->
  Jinja.all_chars Str.is_digit d2 = true ->
  d1 +:+ String c x = d2 +:+ String c y ->
  d1 = d2.
Proof.
  induction d1 as [|a d1 IH]; intros [|b d2] x y Hc H1 H2 Heq;
    simpl in *.
  - reflexivity.
  - injection Heq as -> _. apply andb_prop in H2 as [H2 _]. congruence.
  - injection Heq as -> _. apply andb_prop in H1 as [H1 _]. congruence.
  - injection Heq as -> Heq.
    apply andb_prop in H1 as [_ H1]. apply andb_prop in H2 as [_ H2].
    f_equal. now apply (IH d2 x y).
Qed.

Lemma str_of_nat_inj (n m : nat) :
  Py.str_of_nat n = Py.str_of_nat m -> n = m.
Proof.
  unfold Py.str_of_nat. intros H.
  apply (f_equal NilEmpty.uint_of_string) in H.
  rewrite !NilEmpty.usu in H. injection H as H.
  now apply DecimalNat.Unsigned.to_uint_inj.
Qed.

(** The ordinal can be read off a unit: two units with the same prefix
    and different ordinals differ. *)
Lemma stmt_ordinal_inj (pfx : string) (n m : nat) (b b' : string) :
  stmt pfx n b = stmt pfx m b' -> n = m.
Proof.
  unfold stmt. intros H.
  apply append_inv_head, append_inv_head, append_inv_head in H.
  apply str_of_nat_inj. simpl in H.
  apply (digits_prefix_unique ")" _ _ _ _ eq_refl) in H;
    [exact H|apply digits_string_of_uint..].
Qed.

Lemma NoDup_map_sorted {A} (f : nat -> A) (l : list nat) :
  (forall i j, f i = f j -> i = j) ->
  StronglySorted lt l -> NoDup (map f l).
Proof.
  intros Hinj Hsorted. induction Hsorted as [|a l Hsorted IH Hall].
  - constructor.
  - cbn [map]. constructor; [|exact IH].
    intros Hin. apply list_elem_of_In, in_map_iff in Hin as (j & Hj & Hin).
    apply Hinj in Hj as ->.
    rewrite List.Forall_forall in Hall. apply Hall in Hin. lia.
Qed.





(** X11. [render] returns at most as many units as the split has
    segments, and that is one more than the semicolons left after the
    comment passes, hence at most one more than the semicolons of the
    engine's text. *)
Theorem units_bounded_by_semicolons {E : Engine} (self : t E)
  (p : Py.value) (units : list string) :
  result (render p) self = inr units ->
  exists text,
    render_template (template self) (dict_of (or_dict p)) = inr text
    /\ length units <= length (post_process text)
    /\ length (post_process text)
       = S (Str.occurrences ";" (Str.strip_comments text))
    /\ length (post_process text) <= S (Str.occurrences ";" text).
Proof.
  intros Hret. apply render_returns in Hret as (text & Hengine & ->).
  exists text. split; [exact Hengine|].
  assert (Hlen : length (post_process text)
                 = S (Str.occurrences ";" (Str.strip_comments text)))
    by apply split_length.
  split; [|split; [exact Hlen|]].
  - rewrite emit_positions, length_map. unfold Unit.positions.
    rewrite positions_length. apply List.filter_length_le.
  - rewrite Hlen. unfold Str.strip_comments, sub_empty.
    pose proof (sub_skip_occurrences line_comment ";"
                  (sub_skip block_comment 0 text) 0).
    pose proof (sub_skip_occurrences block_comment ";" text 0). lia.
Qed.

Lemma units_bounded_by_semicolons_witness :
  result (render (Py.VDict ∅)) (Scenario.plain Scenario.statement_D "q")
  = inr [stmt "q" 1 "select 1"; stmt "q" 2 "select 2"]
  /\ exists text,
       render_template (template (Scenario.plain Scenario.statement_D "q"))
         (dict_of (or_dict (Py.VDict ∅))) = inr text
       /\ length [stmt "q" 1 "select 1"; stmt "q" 2 "select 2"]
          <= length (post_process text)
       /\ length (post_process text)
          = S (Str.occurrences ";" (Str.strip_comments text))
       /\ length (post_process text) <= S (Str.occurrences ";" text).
Proof.
  assert (Hret : result (render (Py.VDict ∅))
                   (Scenario.plain Scenario.statement_D "q")
                 = inr [stmt "q" 1 "select 1"; stmt "q" 2 "select 2"])
    by reflexivity.
  split; [exact Hret|].
  exact (units_bounded_by_semicolons _ _ _ Hret).
Defined.

(** X12. The units of one call are pairwise different: each carries its
    own ordinal in the header, so a statement text that occurs twice
    still gives two distinct units. *)
Theorem units_are_distinct {E : Engine} (self : t E) (p : Py.value)
  (units : list string) :
  result (render p) self = inr units -> NoDup units.
Proof.
  intros Hret. apply render_returns in Hret as (text & _ & ->).
  rewrite emit_positions. apply NoDup_map_sorted.
  - intros i j Hij. unfold Unit.at_position in Hij.
    apply stmt_ordinal_inj in Hij. lia.
  - apply positions_from_sorted.
Qed.

Lemma units_are_distinct_witness :
  result (render (Py.VDict ∅)) (Scenario.plain "select 1;select 1" "q")
  = inr [stmt "q" 1 "select 1"; stmt "q" 2 "select 1"]
  /\ NoDup [stmt "q" 1 "select 1"; stmt "q" 2 "select 1"].
Proof.
  assert (Hret : result (render (Py.VDict ∅))
                   (Scenario.plain "select 1;select 1" "q")
                 = inr [stmt "q" 1 "select 1"; stmt "q" 2 "select 1"])
    by reflexivity.
  split; [exact Hret|].
  exact (units_are_distinct _ _ _ Hret).
Defined.

(** X13. [render] catches nothing: it raises an error of the engine
    exactly when the argument passed the check and the engine raised that
    very error on the bindings. *)
Theorem engine_error_propagates {E : Engine} (self : t E) (p : Py.value)
  (e : engine_error) :
  result (render p) self = inl (EngineError e)
  <-> Py.isinstance_dict (or_dict p) = true
      /\ render_template (template self) (dict_of (or_dict p)) = inl e.
Proof.
  rewrite render_result. unfold Unit.outcome. cbv zeta.
  destruct (Py.isinstance_dict (or_dict p)).
  - destruct (render_template (template self) (dict_of (or_dict p)))
      as [e'|text]; split.
    + intros [= ->]. now split.
    + intros [_ [= ->]]. reflexivity.
    + discriminate.
    + intros [_ H]. discriminate H.
  - split; [discriminate|]. intros [H _]. discriminate H.
Qed.



End Units.

(** ** The ordinal in the header *)

Section Header.

Import QueryBuilder.

Lemma after_prefix_app (p x : string) : Str.after_prefix p (p +:+ x) = Some x.
Proof.
  induction p as [|a p IH]; simpl; [reflexivity|].
  now rewrite Ascii.eqb_refl.
Qed.

Lemma leading_digits_stop (d : string) (c : ascii) (x : string) :
  Jinja.all_chars Str.is_digit d = true ->
  Str.is_digit c = false ->
  Str.leading_digits (d +:+ String c x) = d.
Proof.
  intros Hd Hc. induction d as [|a d IH]; simpl in *.
  - now rewrite Hc.
  - apply andb_prop in Hd as [Ha Hd]. rewrite Ha. now rewrite IH.
Qed.

Lemma str_of_nat_read (n : nat) :
  option_map Nat.of_uint (NilEmpty.uint_of_string (Py.str_of_nat n))
  = Some n.
Proof.
  unfold Py.str_of_nat. rewrite NilEmpty.usu. cbn [option_map].
  now rewrite DecimalNat.Unsigned.of_to.
Qed.

Lemma str_of_nat_nonempty (n : nat) : Py.str_of_nat n <> EmptyString.
Proof.
  intros Hempty. pose proof (str_of_nat_read n) as Hread.
  rewrite Hempty in Hread. cbn in Hread. injection Hread as <-.
  discriminate Hempty.
Qed.

(** A unit made by [stmt] shows its ordinal: reading the header gives the
    number back. *)
Lemma header_ordinal_stmt (pfx : string) (n : nat) (body : string) :
  Str.header_ordinal pfx (stmt pfx n body) = Some n.
Proof.
  unfold Str.header_ordinal, stmt.
  pose proof (str_of_nat_read n) as Hread.
  pose proof (str_of_nat_nonempty n) as Hne.
  pose proof (digits_string_of_uint (Nat.to_uint n)) as Hdigits.
  fold (Py.str_of_nat n) in Hdigits.
  remember (Py.str_of_nat n) as d eqn:Hd. clear Hd.
  replace ("-- " +:+ pfx +:+ " (#" +:+ d +:+ ") --" +:+ Py.nl +:+ body
           +:+ Py.nl)
    with (("-- " +:+ pfx +:+ " (#")
          +:+ d +:+ String ")" (" --" +:+ Py.nl +:+ body +:+ Py.nl))
    by (simpl; now rewrite !append_assoc).
  rewrite (after_prefix_app ("-- " +:+ pfx +:+ " (#")
             (d +:+ String ")" (" --" +:+ Py.nl +:+ body +:+ Py.nl))).
  cbv zeta.
  rewrite (leading_digits_stop d ")" _ Hdigits eq_refl).
  destruct d as [|c d]; [contradiction|].
  replace (String c d +:+ String ")" (" --" +:+ Py.nl +:+ body +:+ Py.nl))
    with ((String c d +:+ ") --" +:+ Py.nl) +:+ body +:+ Py.nl)
    by (rewrite !append_assoc; reflexivity).
  rewrite after_prefix_app. exact Hread.
Qed.

(** C2. Whenever [render] returns, its units are, in this order, the
    units of the non-blank segments of the [;] split of the post-processed
    text, taken from left to right (the positions are strictly
    increasing).  The unit for the segment at 0-based position [i] of the
    whole split, blanks counted, is the line [-- <prefix> (#<i+1>) --],
    the trimmed segment and a newline, and the number a reader finds in
    that header is [i + 1]. *)
Theorem ordinals_are_raw_positions {E : Engine} (self : t E) (p : Py.value)
  (units : list string) :
  result (render p) self = inr units ->
  exists text,
    render_template (template self) (dict_of (or_dict p)) = inr text
    /\ units
       = map (fun i =>
                "-- " +:+ prefix self +:+ " (#" +:+ Py.str_of_nat (i + 1)
                +:+ ") --" +:+ Py.nl
                +:+ Py.strip (nth i (post_process text) EmptyString)
                +:+ Py.nl)
           (Unit.positions (post_process text))
    /\ map (Str.header_ordinal (prefix self)) units
       = map (fun i => Some (i + 1)) (Unit.positions (post_process text))
    /\ StronglySorted lt (Unit.positions (post_process text))
    /\ (forall i, In i (Unit.positions (post_process text))
                  <-> exists s, post_process text !! i = Some s
                                /\ Py.strip s <> EmptyString).
Proof.
  intros Hret. apply render_returns in Hret as (text & Hengine & ->).
  exists text. split; [exact Hengine|]. split; [apply emit_positions|].
  split; [|split; [apply positions_from_sorted|]].
  - rewrite emit_positions, map_map. apply map_ext. intros i.
    apply header_ordinal_stmt.
  - intros i. unfold Unit.positions. rewrite positions_from_spec.
    rewrite Nat.sub_0_r. unfold Unit.nonblank. split.
    + intros (_ & s & Hs & Hnb). exists s. now rewrite <- truthy_spec.
    + intros (s & Hs & Hnb). split; [lia|]. exists s. now rewrite truthy_spec.
Qed.

Lemma ordinals_are_raw_positions_witness :
  result (render (Py.VDict ∅)) (Scenario.plain Scenario.gap "q")
  = inr ["-- q (#1) --" +:+ Py.nl +:+ "select 1" +:+ Py.nl;
         "-- q (#3) --" +:+ Py.nl +:+ "select 3" +:+ Py.nl]
  /\ map (Str.header_ordinal "q")
       ["-- q (#1) --" +:+ Py.nl +:+ "select 1" +:+ Py.nl;
        "-- q (#3) --" +:+ Py.nl +:+ "select 3" +:+ Py.nl]
     = [Some 1; Some 3]
  /\ exists text,
       render_template (template (Scenario.plain Scenario.gap "q"))
         (dict_of (or_dict (Py.VDict ∅))) = inr text
       /\ ["-- q (#1) --" +:+ Py.nl +:+ "select 1" +:+ Py.nl;
           "-- q (#3) --" +:+ Py.nl +:+ "select 3" +:+ Py.nl]
          = map (fun i =>
                   "-- " +:+ prefix (Scenario.plain Scenario.gap "q")
                   +:+ " (#" +:+ Py.str_of_nat (i + 1) +:+ ") --" +:+ Py.nl
                   +:+ Py.strip (nth i (post_process text) EmptyString)
                   +:+ Py.nl)
              (Unit.positions (post_process text))
       /\ map (Str.header_ordinal (prefix (Scenario.plain Scenario.gap "q")))
            ["-- q (#1) --" +:+ Py.nl +:+ "select 1" +:+ Py.nl;
             "-- q (#3) --" +:+ Py.nl +:+ "select 3" +:+ Py.nl]
          = map (fun i => Some (i + 1)) (Unit.positions (post_process text))
       /\ StronglySorted lt (Unit.positions (post_process text))
       /\ (forall i, In i (Unit.positions (post_process text))
                     <-> exists s, post_process text !! i = Some s
                                   /\ Py.strip s <> EmptyString).
Proof.
  assert (Hret : result (render (Py.VDict ∅)) (Scenario.plain Scenario.gap "q")
                 = inr ["-- q (#1) --" +:+ Py.nl +:+ "select 1" +:+ Py.nl;
                        "-- q (#3) --" +:+ Py.nl +:+ "select 3" +:+ Py.nl])
    by reflexivity.
  split; [exact Hret|]. split; [reflexivity|].
  exact (ordinals_are_raw_positions _ _ _ Hret).
Defined.

End Header.

(** ** Calls of [render] when the engine has state *)

Section Worlds.

Import QueryBuilder.

Context {E : Engine} {World : Type}.

Variable render_in :
  Template -> gmap string Py.value -> World ->
  (engine_error + string) * World.

Implicit Types (self : t E) (p : Py.value) (w : World).

Lemma for_each_loop_body_in (items : list (nat * string)) acc
  (st : t E * World) :
  InWorld.for_each items InWorld.loop_body acc st
  = (st, inr (acc ++ flat_map (Unit.emit (prefix (fst st))) items)%list).
Proof.
  revert acc. induction items as [|[index statement] items IH]; intros acc.
  - cbn. now rewrite app_nil_r.
  - cbn [InWorld.for_each flat_map]. unfold InWorld.bind at 1.
    unfold InWorld.loop_body, Unit.emit, Unit.nonblank. cbn [fst snd].
    destruct (Py.truthy (Py.strip statement)); cbn.
    + rewrite IH. now rewrite <- app_assoc.
    + now rewrite IH.
Qed.

(** What the units are, given what the engine answered. *)
Lemma render_in_unfold self p w :
  InWorld.render render_in p (self, w)
  = if Py.isinstance_dict (or_dict p) then
      ((self, snd (render_in (template self) (dict_of (or_dict p)) w)),
       match fst (render_in (template self) (dict_of (or_dict p)) w) with
       | inr text =>
           inr (flat_map (Unit.emit (prefix self))
                  (Py.enumerate (post_process text)))
       | inl e => inl (EngineError e)
       end)
    else ((self, w), inl (TypeError (type_error_msg (or_dict p)))).
Proof.
  unfold InWorld.render. cbv zeta.
  destruct (Py.isinstance_dict (or_dict p)); cbn [negb]; [|reflexivity].
  unfold InWorld.bind, InWorld.attr, InWorld.call. cbn [fst snd].
  destruct (render_in (template self) (dict_of (or_dict p)) w)
    as [[e|text] w']; cbn [fst snd]; [reflexivity|].
  now rewrite for_each_loop_body_in.
Qed.





End Worlds.

Section WorldsAtWork.

Import QueryBuilder.

(** With an engine that has no state, [InWorld.render] is [render]. *)
Lemma render_in_stateless {E : Engine} {World : Type} (self : t E)
  (p : Py.value) (w : World) :
  InWorld.render InWorld.stateless p (self, w)
  = ((after (render p) self, w), result (render p) self).
Proof.
  rewrite render_in_unfold, render_frame, render_result.
  unfold Unit.outcome, InWorld.stateless. cbv zeta. cbn [fst snd].
  now destruct (Py.isinstance_dict (or_dict p)).
Qed.



End WorldsAtWork.
